(** * Credit scoring: financial calculator and hybrid decision engine

    A shallow embedding of [src/calculator.py] (class [CalculateurCredit]),
    [src/config.py] (the [CONFIG] mapping) and [src/decision_engine.py]
    (class [MoteurDecision]).

    Numbers.  The Python code computes on [int] and [float].  Integers
    are [Z].  Floats are read as exact rationals [Q]: every operation the
    code applies to them ([+], [-], [*], [/], [**] with an integer
    exponent, comparisons) is rational, so the formulas are embedded
    literally and no rounding is modelled.  The one non-rational float the
    code creates, [float('inf')] in [taux_endettement], is the
    constructor [Inf] of [flottant].

    Exceptions.  [a / b] raises [ZeroDivisionError] when [b] is zero, and
    so does [0.0 ** n] for a negative [n]; a computation that can raise
    returns an [option], [None] standing for the raised exception. *)

From Stdlib Require Import ZArith QArith Qpower Qminmax List Bool Lia Lqa.
From Stdlib Require Import Qround Qabs.
From Stdlib Require String.
Import ListNotations.
Import String.StringSyntax.
Delimit Scope string_scope with string.

Local Open Scope Q_scope.

(** ** Python arithmetic *)

Module Py.

(** The error monad of a computation that may raise. *)
Definition bind {A B : Type} (m : option A) (k : A -> option B) : option B :=
  match m with
  | Some a => k a
  | None => None
  end.

(** [a / b] *)
Definition div (a b : Q) : option Q :=
  if Qeq_bool b 0 then None else Some (a / b).

(** [x ** n], [n] an [int] *)
Definition pow (x : Q) (n : Z) : option Q :=
  if Qeq_bool x 0 && (n <? 0)%Z then None else Some (x ^ n).

(** [a < b], [a > b], [a >= b] on floats; [a <= b] is [Qle_bool] and
    [a == b] is [Qeq_bool]. *)
Definition ltb (a b : Q) : bool := negb (Qle_bool b a).
Definition gtb (a b : Q) : bool := ltb b a.
Definition geb (a b : Q) : bool := Qle_bool b a.

(** [max(a, b)] and [min(a, b)]: the first argument unless the second
    is strictly larger (smaller). *)
Definition max (a b : Z) : Z := if (a <? b)%Z then b else a.
Definition min (a b : Z) : Z := if (b <? a)%Z then b else a.
Definition maxq (a b : Q) : Q := if ltb a b then b else a.

(** [range(a, b)] *)
Definition range (a b : Z) : list Z :=
  map (fun i => (a + Z.of_nat i)%Z) (seq 0 (Z.to_nat (b - a))).

(** [d.get(key, default)], the entry of a dict being [None] when the
    key is absent. *)
Definition get {A : Type} (entry : option A) (default : A) : A :=
  match entry with
  | Some v => v
  | None => default
  end.

End Py.

Notation "x <- m ;; k" := (Py.bind m (fun x => k))
  (at level 61, m at next level, right associativity).
Infix "//" := Py.div (at level 40, left associativity).
Infix "**" := Py.pow (at level 30, right associativity).

(** A float that may be [float('inf')]. *)
Inductive flottant : Type :=
| Fin (q : Q)
| Inf.

Module Flottant.
(** [x > c] and [x <= c] for a finite [c]; [x * c] for a finite
    positive [c]. *)
Definition gtb (x : flottant) (c : Q) : bool :=
  match x with Fin q => Py.gtb q c | Inf => true end.
Definition leb (x : flottant) (c : Q) : bool :=
  match x with Fin q => Qle_bool q c | Inf => false end.
Definition scale (x : flottant) (c : Q) : flottant :=
  match x with
  | Fin q => Fin (q * c)
  | Inf => Inf
  end.

End Flottant.

(** ** [config.py] *)

Module CONFIG.
Definition MAX_DEBT_RATIO : Q := 0.35.
Definition MIN_RESTE_A_VIVRE : Z := 700.
Definition MIN_RESTE_A_VIVRE_ENFANT : Z := 300.
Definition MAX_AGE_FIN_PRET : Z := 75.
Definition MIN_AGE : Z := 18.
Definition MAX_DUREE_IMMO : Z := 25.
Definition MAX_DUREE_CONSO : Z := 7.
Definition TAUX_IMMO : Q := 0.035.
Definition TAUX_CONSO : Q := 0.065.
Definition APPORT_MIN_RECOMMANDE : Q := 0.10.
Definition SEUIL_IMMO : Q := 75000.
End CONFIG.

(** ** [calculator.py]: class [CalculateurCredit] *)

Inductive type_de_credit : Type :=
| immobilier
| consommation.

(** A row of the yearly amortization table. *)
Record ligne : Type := Ligne {
  annee : Z;
  capital_rembourse : Q;
  interets : Q;
  solde_restant : Q
}.

Module CalculateurCredit.

Definition mensualite (capital taux_annuel : Q) (duree_annees : Z) : option Q :=
  if Qeq_bool taux_annuel 0 then
    capital // inject_Z (duree_annees * 12)
  else
    let taux_mensuel := taux_annuel / 12 in
    let nb_mois := (duree_annees * 12)%Z in
    p <- (1 + taux_mensuel) ** nb_mois ;;
    (capital * (taux_mensuel * p)) // (p - 1).

Definition cout_total (capital taux_annuel : Q) (duree_annees : Z) : option (Q * Q) :=
  mens <- mensualite capital taux_annuel duree_annees ;;
  let total := mens * inject_Z duree_annees * 12 in
  Some (total, total - capital).

Definition taux_endettement (mensualite revenu_mensuel : Q) : flottant :=
  if Qle_bool revenu_mensuel 0 then Inf
  else Fin (mensualite / revenu_mensuel).

Definition capacite_emprunt (revenu_mensuel taux_annuel : Q)
    (duree_annees : Z) (charges : Q) : option Q :=
  let mensualite_max := revenu_mensuel * CONFIG.MAX_DEBT_RATIO - charges in
  if Qle_bool mensualite_max 0 then Some 0
  else
    let taux_mensuel := taux_annuel / 12 in
    let nb_mois := (duree_annees * 12)%Z in
    if Qeq_bool taux_annuel 0 then Some (mensualite_max * inject_Z nb_mois)
    else
      p <- (1 + taux_mensuel) ** nb_mois ;;
      (mensualite_max * (p - 1)) // (taux_mensuel * p).

Definition type_credit (montant : Q) : type_de_credit :=
  if Py.geb montant CONFIG.SEUIL_IMMO then immobilier else consommation.

Definition taux_interet (montant : Q) : Q :=
  if Py.geb montant CONFIG.SEUIL_IMMO then CONFIG.TAUX_IMMO else CONFIG.TAUX_CONSO.

(** The body of [for mois in range(12)], run for [mois] more months on
    the triple [(solde, interets_annee, capital_rembourse)]; [break]
    leaves the triple as it is. *)
Fixpoint boucle_mois (mois : nat) (mensualite taux_mensuel : Q)
    (etat : Q * Q * Q) : Q * Q * Q :=
  match mois with
  | O => etat
  | S reste =>
      let '(solde, interets_annee, capital_rembourse) := etat in
      if Qle_bool solde 0 then etat
      else
        let interet := solde * taux_mensuel in
        let principal := mensualite - interet in
        boucle_mois reste mensualite taux_mensuel
          (solde - principal, interets_annee + interet, capital_rembourse + principal)
  end.

(** The body of [for annee in range(1, duree_annees + 1)]: the rows
    appended to [tableau], [solde] being carried from year to year. *)
Fixpoint boucle_annees (annees : list Z) (mensualite taux_mensuel solde : Q)
    : list ligne :=
  match annees with
  | [] => []
  | annee :: suite =>
      let '(solde', interets_annee, capital_rembourse) :=
        boucle_mois 12 mensualite taux_mensuel (solde, 0, 0) in
      Ligne annee capital_rembourse interets_annee (Py.maxq 0 solde')
        :: boucle_annees suite mensualite taux_mensuel solde'
  end.

Definition tableau_amortissement (capital taux_annuel : Q) (duree_annees : Z)
    : option (list ligne) :=
  mensualite <- mensualite capital taux_annuel duree_annees ;;
  let taux_mensuel := taux_annuel / 12 in
  let solde := capital in
  Some (boucle_annees (Py.range 1 (duree_annees + 1)) mensualite taux_mensuel solde).

End CalculateurCredit.

(** ** [decision_engine.py]: class [MoteurDecision] *)

(** The application, a dict read with [dossier.get(key, default)]: an
    entry is [None] when its key is absent.  The value types are those
    of the callers ([float] for amounts and tenure, [int] for the term,
    the age and the children). *)
Record dossier : Type := Dossier {
  revenu_annuel : option Q;
  montant_credit : option Q;
  duree_annees : option Z;
  age : option Z;
  anciennete_emploi : option Q;
  nb_enfants : option Z;
  charges_existantes : option Q;
  apport : option Q
}.

(** The entries [_score_ml] writes into the feature row; [None] is
    [np.nan].  Every other feature of the row stays [np.nan]. *)
Record row : Type := Row {
  AMT_INCOME_TOTAL : option Q;
  AMT_CREDIT : option Q;
  AGE_YEARS : option Z;
  EMPLOYED_YEARS : option Q;
  CNT_CHILDREN : Z;
  CNT_FAM_MEMBERS : Z;
  AMT_ANNUITY : Q;
  CREDIT_INCOME_RATIO : option Q;
  ANNUITY_INCOME_RATIO : option Q;
  INCOME_MONTHLY : Q;
  DEBT_RATIO : option Q;
  RESTE_A_VIVRE : Q;
  DUREE_PRET_YEARS : Z;
  AGE_FIN_PRET : Z;
  CREDIT_TERM_MONTHS : Z
}.

Definition nan {A : Type} : option A := None.

(** The injected classifier, seen through the one expression that uses it,
    [float(self.model.predict_proba(X_pred)[:, 1][0])]: the probability
    of the positive class, or [None] when anything in it raises (no
    model, malformed input, runtime error). *)
Definition classifieur : Type := row -> option Q.

Inductive severite : Type :=
| warning
| danger.

(** The messages of the findings, one constructor per f-string, carrying
    the values the f-string interpolates (their rendering as text is not
    modelled). *)
Inductive message : Type :=
| Taux_endettement_critique (pourcent : flottant)
| Taux_endettement_eleve (pourcent : flottant) (pourcent_max : Q)
| Excellent_taux_endettement (pourcent : flottant)
| Bon_taux_endettement (pourcent : flottant)
| Reste_a_vivre_insuffisant (reste_a_vivre : Q)
| Reste_a_vivre_limite (reste_a_vivre : Q) (seuil_rav : Z)
| Excellent_reste_a_vivre (reste_a_vivre : Q)
| Age_insuffisant (age : Z)
| Age_fin_pret_eleve (age_fin_pret : Z)
| Anciennete_emploi_faible (anciennete : Q)
| Excellente_stabilite_professionnelle (anciennete : Q)
| Bonne_anciennete (anciennete : Q)
| Apport_consequent (pourcent : Q)
| Apport_faible (pourcent : Q).

(** The three values of ['decision']. *)
Inductive decision_credit : Type :=
| ACCEPTE
| ACCEPTE_SOUS_CONDITIONS
| REFUSE.

(** The three values of ['raison_refus'] other than [None]. *)
Inductive raison : Type :=
| Refus_taux_endettement_excessif
| Refus_reste_a_vivre_insuffisant
| Refus_age_minimum_non_atteint.

(** The ['details'] entry of the result. *)
Record details_financiers : Type := Details {
  d_type_credit : type_de_credit;
  d_taux : Q;
  d_mensualite : Q;
  d_taux_endettement : flottant;
  d_reste_a_vivre : Q;
  d_cout_total : Q;
  d_interets : Q;
  d_capacite_max : Q;
  d_age_fin_pret : Z
}.

(** The dict [analyser] returns. *)
Record resultat : Type := Resultat {
  decision : decision_credit;
  score_final : Q;
  score_metier : Z;
  score_ml : Q;
  proba_defaut : Q;
  alertes : list (severite * message);
  points_forts : list message;
  refus_auto : bool;
  raison_refus : option raison;
  details : details_financiers
}.

(** The three variables the rules update: [score_metier], [alertes] and
    [points_forts]. *)
Definition bilan : Type := Z * list (severite * message) * list message.

Module MoteurDecision.

Import CalculateurCredit.

(** Lines 72-83. *)
Definition regle_taux_endettement (taux_endettement : flottant) (b : bilan) : bilan :=
  let '(score_metier, alertes, points_forts) := b in
  let pourcent := Flottant.scale taux_endettement 100 in
  if Flottant.gtb taux_endettement 0.50 then
    ((score_metier - 40)%Z,
     alertes ++ [(danger, Taux_endettement_critique pourcent)], points_forts)
  else if Flottant.gtb taux_endettement CONFIG.MAX_DEBT_RATIO then
    ((score_metier - 25)%Z,
     alertes ++ [(warning,
                  Taux_endettement_eleve pourcent (CONFIG.MAX_DEBT_RATIO * 100))],
     points_forts)
  else if Flottant.leb taux_endettement 0.25 then
    ((score_metier + 10)%Z, alertes,
     points_forts ++ [Excellent_taux_endettement pourcent])
  else if Flottant.leb taux_endettement 0.33 then
    (score_metier, alertes, points_forts ++ [Bon_taux_endettement pourcent])
  else b.

(** Lines 85-95. *)
Definition regle_reste_a_vivre (reste_a_vivre : Q) (nb_enfants : Z) (b : bilan) : bilan :=
  let '(score_metier, alertes, points_forts) := b in
  let seuil_rav :=
    (CONFIG.MIN_RESTE_A_VIVRE + nb_enfants * CONFIG.MIN_RESTE_A_VIVRE_ENFANT)%Z in
  if Py.ltb reste_a_vivre 400 then
    ((score_metier - 35)%Z,
     alertes ++ [(danger, Reste_a_vivre_insuffisant reste_a_vivre)], points_forts)
  else if Py.ltb reste_a_vivre (inject_Z seuil_rav) then
    ((score_metier - 20)%Z,
     alertes ++ [(warning, Reste_a_vivre_limite reste_a_vivre seuil_rav)],
     points_forts)
  else if Py.gtb reste_a_vivre (inject_Z (seuil_rav * 2)) then
    ((score_metier + 10)%Z, alertes,
     points_forts ++ [Excellent_reste_a_vivre reste_a_vivre])
  else b.

(** Lines 97-103: two [if] statements in sequence. *)
Definition regle_age (age age_fin_pret : Z) (b : bilan) : bilan :=
  let '(score_metier, alertes, points_forts) := b in
  let '(score_metier, alertes) :=
    if (age <? CONFIG.MIN_AGE)%Z then
      ((score_metier - 50)%Z, alertes ++ [(danger, Age_insuffisant age)])
    else (score_metier, alertes) in
  let '(score_metier, alertes) :=
    if (age_fin_pret >? CONFIG.MAX_AGE_FIN_PRET)%Z then
      ((score_metier - 15)%Z, alertes ++ [(warning, Age_fin_pret_eleve age_fin_pret)])
    else (score_metier, alertes) in
  (score_metier, alertes, points_forts).

(** Lines 105-113. *)
Definition regle_anciennete (anciennete : Q) (b : bilan) : bilan :=
  let '(score_metier, alertes, points_forts) := b in
  if Py.ltb anciennete 0.5 then
    ((score_metier - 15)%Z,
     alertes ++ [(warning, Anciennete_emploi_faible anciennete)], points_forts)
  else if Py.geb anciennete 5 then
    ((score_metier + 10)%Z, alertes,
     points_forts ++ [Excellente_stabilite_professionnelle anciennete])
  else if Py.geb anciennete 2 then
    (score_metier, alertes, points_forts ++ [Bonne_anciennete anciennete])
  else b.

(** Lines 115-123.  The division is guarded by its own test. *)
Definition regle_apport (type_credit : type_de_credit) (montant apport : Q)
    (b : bilan) : bilan :=
  let '(score_metier, alertes, points_forts) := b in
  match type_credit with
  | immobilier =>
      let taux_apport :=
        if Py.gtb (montant + apport) 0 then apport / (montant + apport) else 0 in
      if Py.geb taux_apport 0.20 then
        ((score_metier + 10)%Z, alertes,
         points_forts ++ [Apport_consequent (taux_apport * 100)])
      else if Py.ltb taux_apport CONFIG.APPORT_MIN_RECOMMANDE then
        ((score_metier - 10)%Z,
         alertes ++ [(warning, Apport_faible (taux_apport * 100))], points_forts)
      else b
  | consommation => b
  end.

(** Lines 192-214 of [_score_ml]: the feature row.  [revenu / 12] is
    positive wherever the code divides by it. *)
Definition features (dossier : dossier) (mensualite : Q) (duree : Z) : row :=
  let revenu := Py.get (revenu_annuel dossier) 1 in
  let montant := Py.get (montant_credit dossier) 0 in
  {| AMT_INCOME_TOTAL := Py.get (option_map Some (revenu_annuel dossier)) nan;
     AMT_CREDIT := Py.get (option_map Some (montant_credit dossier)) nan;
     AGE_YEARS := Py.get (option_map Some (age dossier)) nan;
     EMPLOYED_YEARS := Py.get (option_map Some (anciennete_emploi dossier)) nan;
     CNT_CHILDREN := Py.get (nb_enfants dossier) 0%Z;
     CNT_FAM_MEMBERS := (Py.get (nb_enfants dossier) 0 + 1)%Z;
     AMT_ANNUITY := mensualite * 12;
     CREDIT_INCOME_RATIO := if Py.gtb revenu 0 then Some (montant / revenu) else nan;
     ANNUITY_INCOME_RATIO :=
       if Py.gtb revenu 0 then Some ((mensualite * 12) / revenu) else nan;
     INCOME_MONTHLY := revenu / 12;
     DEBT_RATIO := if Py.gtb revenu 0 then Some (mensualite / (revenu / 12)) else nan;
     RESTE_A_VIVRE := (revenu / 12) - mensualite;
     DUREE_PRET_YEARS := duree;
     AGE_FIN_PRET := (Py.get (age dossier) 30 + duree)%Z;
     CREDIT_TERM_MONTHS := (duree * 12)%Z |}.

Section Moteur.

(** [self.model] *)
Variable model : classifieur.

(** Lines 216-225: the [try] with its bare [except]. *)
Definition _score_ml (dossier : dossier) (mensualite : Q) (duree : Z) : Q :=
  let X_pred := features dossier mensualite duree in
  match model X_pred with
  | Some proba => proba
  | None => 0.5
  end.

Definition analyser (dossier : dossier) : option resultat :=
  let revenu_annuel := Py.get (revenu_annuel dossier) 0 in
  let revenu_mensuel := revenu_annuel / 12 in
  let montant := Py.get (montant_credit dossier) 0 in
  let duree := Py.get (duree_annees dossier) 20%Z in
  let age := Py.get (age dossier) 30%Z in
  let anciennete := Py.get (anciennete_emploi dossier) 0 in
  let nb_enfants := Py.get (nb_enfants dossier) 0%Z in
  let charges := Py.get (charges_existantes dossier) 0 in
  let apport := Py.get (apport dossier) 0 in
  let type_credit := type_credit montant in
  let taux := taux_interet montant in
  mensualite <- mensualite montant taux duree ;;
  let mensualite_totale := mensualite + charges in
  let taux_endettement := taux_endettement mensualite_totale revenu_mensuel in
  let reste_a_vivre := revenu_mensuel - mensualite_totale in
  couts <- cout_total montant taux duree ;;
  let '(cout_total, interets) := couts in
  capacite_max <- capacite_emprunt revenu_mensuel taux duree charges ;;
  let age_fin_pret := (age + duree)%Z in
  let b : bilan := (100%Z, [], []) in
  let b := regle_taux_endettement taux_endettement b in
  let b := regle_reste_a_vivre reste_a_vivre nb_enfants b in
  let b := regle_age age age_fin_pret b in
  let b := regle_anciennete anciennete b in
  let b := regle_apport type_credit montant apport b in
  let '(score_metier, alertes, points_forts) := b in
  let proba_defaut := _score_ml dossier mensualite duree in
  let score_ml := (1 - proba_defaut) * 100 in
  let score_metier := Py.max 0 (Py.min 100 score_metier) in
  let score_final := 0.6 * inject_Z score_metier + 0.4 * score_ml in
  let '(refus_auto, raison_refus) :=
    if Flottant.gtb taux_endettement 0.50 then
      (true, Some Refus_taux_endettement_excessif)
    else if Py.ltb reste_a_vivre 400 then
      (true, Some Refus_reste_a_vivre_insuffisant)
    else if (age <? CONFIG.MIN_AGE)%Z then
      (true, Some Refus_age_minimum_non_atteint)
    else (false, None) in
  let decision :=
    if refus_auto then REFUSE
    else if Py.geb score_final 70 then ACCEPTE
    else if Py.geb score_final 50 then ACCEPTE_SOUS_CONDITIONS
    else REFUSE in
  Some {| decision := decision;
          score_final := score_final;
          score_metier := score_metier;
          score_ml := score_ml;
          proba_defaut := proba_defaut;
          alertes := alertes;
          points_forts := points_forts;
          refus_auto := refus_auto;
          raison_refus := raison_refus;
          details := {| d_type_credit := type_credit;
                        d_taux := taux;
                        d_mensualite := mensualite;
                        d_taux_endettement := taux_endettement;
                        d_reste_a_vivre := reste_a_vivre;
                        d_cout_total := cout_total;
                        d_interets := interets;
                        d_capacite_max := capacite_max;
                        d_age_fin_pret := age_fin_pret |} |}.

End Moteur.

End MoteurDecision.

(** ** Specification functions *)




(** ** Sample applications and classifiers *)

Module Exemples.

(** No usable model: [predict_proba] raises on every call (as with
    [MoteurDecision(model=None)]). *)
Definition modele_absent : classifieur := fun _ => None.


(** Income 50000, principal 200000 over 20 years, age 35, tenure 5,
    two children, charges 500, down payment 20000. *)
Definition dossier_A : dossier :=
  {| revenu_annuel := Some 50000; montant_credit := Some 200000;
     duree_annees := Some 20%Z; age := Some 35%Z;
     anciennete_emploi := Some 5; nb_enfants := Some 2%Z;
     charges_existantes := Some 500; apport := Some 20000 |}.




End Exemples.

(** ** [round] *)

Module Arrondi.



End Arrondi.

(** ** [config.py]: the columns of the model *)

Module COLONNES.

Definition CAT_COLS : list String.string :=
  ["NAME_CONTRACT_TYPE"; "CODE_GENDER"; "FLAG_OWN_CAR"; "FLAG_OWN_REALTY";
   "NAME_TYPE_SUITE"; "NAME_INCOME_TYPE"; "NAME_EDUCATION_TYPE";
   "NAME_FAMILY_STATUS"; "NAME_HOUSING_TYPE"; "OCCUPATION_TYPE";
   "WEEKDAY_APPR_PROCESS_START"; "ORGANIZATION_TYPE"; "FONDKAPREMONT_MODE";
   "HOUSETYPE_MODE"; "WALLSMATERIAL_MODE"; "EMERGENCYSTATE_MODE"]%string.

Definition NUM_COLS : list String.string :=
  ["CNT_CHILDREN"; "AMT_INCOME_TOTAL"; "AMT_CREDIT"; "AMT_ANNUITY";
   "AMT_GOODS_PRICE"; "REGION_POPULATION_RELATIVE"; "DAYS_BIRTH";
   "DAYS_EMPLOYED"; "DAYS_REGISTRATION"; "DAYS_ID_PUBLISH"; "OWN_CAR_AGE";
   "FLAG_MOBIL"; "FLAG_EMP_PHONE"; "FLAG_WORK_PHONE"; "FLAG_CONT_MOBILE";
   "FLAG_PHONE"; "FLAG_EMAIL"; "CNT_FAM_MEMBERS"; "REGION_RATING_CLIENT"]%string.

Definition NUM_COLS_UPDATED : list String.string :=
  ["CNT_CHILDREN"; "AMT_INCOME_TOTAL"; "AMT_CREDIT"; "AMT_ANNUITY";
   "AMT_GOODS_PRICE"; "REGION_POPULATION_RELATIVE"; "OWN_CAR_AGE";
   "FLAG_MOBIL"; "FLAG_EMP_PHONE"; "FLAG_WORK_PHONE"; "FLAG_CONT_MOBILE";
   "FLAG_PHONE"; "FLAG_EMAIL"; "CNT_FAM_MEMBERS"; "REGION_RATING_CLIENT";
   "AGE_YEARS"; "EMPLOYED_YEARS"; "REGISTRATION_YEARS"; "ID_PUBLISH_YEARS"]%string.

Definition ENGINEERED_COLS : list String.string :=
  ["CREDIT_INCOME_RATIO"; "ANNUITY_INCOME_RATIO"; "GOODS_CREDIT_RATIO";
   "CREDIT_TERM_MONTHS"; "INCOME_MONTHLY"; "DEBT_RATIO"; "RESTE_A_VIVRE";
   "DUREE_PRET_YEARS"; "AGE_FIN_PRET"]%string.

Definition FEATURES_FINAL : list String.string :=
  CAT_COLS ++ NUM_COLS_UPDATED ++ ENGINEERED_COLS.

End COLONNES.

(** ** [model_trainer.py]: the feature list of [load_and_prepare_data] *)

Module ModelTrainer.

(** [c in l] on strings. *)
Definition dans (c : String.string) (l : list String.string) : bool :=
  existsb (String.eqb c) l.

(** Lines 60-62. *)
Definition num_cols_updated : list String.string :=
  filter (fun c => negb (dans c ["DAYS_BIRTH"; "DAYS_EMPLOYED";
                                 "DAYS_REGISTRATION"; "DAYS_ID_PUBLISH"]%string))
         COLONNES.NUM_COLS
  ++ ["AGE_YEARS"; "EMPLOYED_YEARS"; "REGISTRATION_YEARS"; "ID_PUBLISH_YEARS"]%string.

(** Lines 75-77. *)
Definition engineered : list String.string :=
  ["CREDIT_INCOME_RATIO"; "ANNUITY_INCOME_RATIO"; "GOODS_CREDIT_RATIO";
   "CREDIT_TERM_MONTHS"; "INCOME_MONTHLY"; "DEBT_RATIO"; "RESTE_A_VIVRE";
   "DUREE_PRET_YEARS"; "AGE_FIN_PRET"]%string.

(** Line 79: [self.features_final]. *)
Definition features_final : list String.string :=
  COLONNES.CAT_COLS ++ num_cols_updated ++ engineered.

End ModelTrainer.

(** ** [decision_engine.py]: the row as a dict and as a one-row table *)

Module Ligne.

(** A cell of the row: a number, or [None] for [np.nan]. *)
Definition cellule : Type := option Q.

(** A Python dict with string keys, in insertion order. *)
Definition dict : Type := list (String.string * cellule).

(** [d[k] = v]: the value of an existing key is replaced in place, a new
    key goes to the end. *)
Fixpoint set (k : String.string) (v : cellule) (d : dict) : dict :=
  match d with
  | [] => [(k, v)]
  | (k', v') :: suite =>
      if String.eqb k k' then (k, v) :: suite else (k', v') :: set k v suite
  end.

(** [d.get(k)] *)
Fixpoint lookup (k : String.string) (d : dict) : option cellule :=
  match d with
  | [] => None
  | (k', v') :: suite => if String.eqb k k' then Some v' else lookup k suite
  end.

(** [self.features = features_list or FEATURES_FINAL]: [None] and the
    empty list are falsy. *)
Definition self_features (features_list : option (list String.string))
    : list String.string :=
  match features_list with
  | Some (c :: suite) => c :: suite
  | _ => COLONNES.FEATURES_FINAL
  end.

(** The fifteen assignments [row[key] = value] of lines 195-214, in
    order, the values being those of the record [MoteurDecision.features]
    (integers as the floats they become in the table). *)
Definition affectations (r : row) : list (String.string * cellule) :=
  [("AMT_INCOME_TOTAL", AMT_INCOME_TOTAL r);
   ("AMT_CREDIT", AMT_CREDIT r);
   ("AGE_YEARS", option_map inject_Z (AGE_YEARS r));
   ("EMPLOYED_YEARS", EMPLOYED_YEARS r);
   ("CNT_CHILDREN", Some (inject_Z (CNT_CHILDREN r)));
   ("CNT_FAM_MEMBERS", Some (inject_Z (CNT_FAM_MEMBERS r)));
   ("AMT_ANNUITY", Some (AMT_ANNUITY r));
   ("CREDIT_INCOME_RATIO", CREDIT_INCOME_RATIO r);
   ("ANNUITY_INCOME_RATIO", ANNUITY_INCOME_RATIO r);
   ("INCOME_MONTHLY", Some (INCOME_MONTHLY r));
   ("DEBT_RATIO", DEBT_RATIO r);
   ("RESTE_A_VIVRE", Some (RESTE_A_VIVRE r));
   ("DUREE_PRET_YEARS", Some (inject_Z (DUREE_PRET_YEARS r)));
   ("AGE_FIN_PRET", Some (inject_Z (AGE_FIN_PRET r)));
   ("CREDIT_TERM_MONTHS", Some (inject_Z (CREDIT_TERM_MONTHS r)))]%string.

(** Line 192 followed by the assignments: the dict [row]. *)
Definition row_dict (features : list String.string) (r : row) : dict :=
  fold_left (fun d kv => set (fst kv) (snd kv) d) (affectations r)
    (fold_left (fun d c => set c nan d) features []).

(** Line 217: [pd.DataFrame([row], columns=self.features)], the one row
    of the table as its cells in column order; a column that is not a key
    of [row] is [np.nan]. *)
Definition X_pred (features : list String.string) (r : row)
    : list (String.string * cellule) :=
  map (fun c => (c, Py.get (lookup c (row_dict features r)) nan)) features.

End Ligne.

(** ** [api/schemas.py] and [api/main.py] *)

Module Schemas.




End Schemas.

Module Api.

Import CalculateurCredit.

(** What a route gives back: the returned value, or the status code of
    the [HTTPException] it raises. *)
Inductive reponse (A : Type) : Type :=
| Reponse (contenu : A)
| HTTPException (status_code : Z).
Arguments Reponse {A} contenu.
Arguments HTTPException {A} status_code.






(** [GET /calculer/tableau-amortissement]: the rows of the table. *)
Definition tableau_amortissement (capital taux_annuel : Q) (duree_annees : Z)
    : reponse (list ligne) :=
  match CalculateurCredit.tableau_amortissement capital taux_annuel duree_annees with
  | Some tableau => Reponse tableau
  | None => HTTPException 400
  end.

End Api.

(** ** Specification functions for the rules *)








(** ** Further sample inputs *)

Module Cas.



End Cas.

(** * Properties *)

(** ** Python arithmetic *)

Section PyFacts.






Lemma geb_false (a b : Q) : Py.geb a b = false <-> a < b.
Proof.
  unfold Py.geb. rewrite <- not_true_iff_false, Qle_bool_iff.
  split; [apply Qnot_le_lt | apply Qlt_not_le].
Qed.


Lemma eqb_false (a b : Q) : Qeq_bool a b = false <-> ~ a == b.
Proof.
  rewrite <- not_true_iff_false, Qeq_bool_iff. reflexivity.
Qed.

Lemma div_Some (a b : Q) : ~ b == 0 -> a // b = Some (a / b).
Proof.
  intros Hb. unfold Py.div. apply eqb_false in Hb. now rewrite Hb.
Qed.

Lemma div_None (a b : Q) : b == 0 -> a // b = None.
Proof.
  intros Hb. unfold Py.div. apply Qeq_bool_iff in Hb. now rewrite Hb.
Qed.





End PyFacts.

(** ** The calculator returns *)

Section CalculFacts.

Import CalculateurCredit.









(** A term of zero years raises, whatever the rate. *)
Lemma mensualite_duree_nulle (P r : Q) : mensualite P r 0 = None.
Proof.
  unfold mensualite. destruct (Qeq_bool r 0) eqn:Hr.
  - reflexivity.
  - apply eqb_false in Hr.
    change (0 * 12)%Z with 0%Z. unfold Py.pow.
    rewrite Z.ltb_irrefl, andb_false_r. cbn [Py.bind].
    apply div_None. simpl. lra.
Qed.

End CalculFacts.

(** ** What [analyser] returns *)

Section MoteurFacts.

Import CalculateurCredit MoteurDecision.

Variable model : classifieur.



(** With a term of zero years, [ZeroDivisionError] escapes [analyser]. *)
Lemma analyser_duree_nulle (d : dossier) :
  Py.get (duree_annees d) 20%Z = 0%Z -> analyser model d = None.
Proof.
  intros Hn. unfold analyser. rewrite Hn, mensualite_duree_nulle. reflexivity.
Qed.

End MoteurFacts.

(** ** The decision *)

Section Decision.

Import CalculateurCredit MoteurDecision.












End Decision.

(** ** The rules and the feature row *)

Section Regles.

Import CalculateurCredit MoteurDecision.








End Regles.

(** ** Annuities *)

Section Annuites.









End Annuites.

(** ** The payment and the capacity as annuities *)

Section Formules.

Import CalculateurCredit.



Lemma inject_Z_mois_neq_0 (n : Z) : n <> 0%Z -> ~ inject_Z (n * 12) == 0.
Proof.
  intros Hn H. unfold Qeq in H. simpl in H. lia.
Qed.




End Formules.

(** ** The calculator: degenerate inputs, inversion, monotonicity *)

Section Calculateur.

Import CalculateurCredit.

(** C7: the degenerate inputs take a branch of their own instead of
    raising: [taux_endettement] returns the infinite ratio for every
    monthly income that is zero or negative, [mensualite] at rate 0
    returns [capital / (duree_annees * 12)] (the term not being zero),
    and [capacite_emprunt] returns 0 whenever the affordable payment
    [revenu_mensuel * MAX_DEBT_RATIO - charges] is zero or negative. *)
Theorem degenerate_inputs_by_branches :
  (forall mensualite revenu_mensuel : Q,
      revenu_mensuel <= 0 -> taux_endettement mensualite revenu_mensuel = Inf)
  /\ (forall (capital taux_annuel : Q) (duree_annees : Z),
        taux_annuel == 0 -> duree_annees <> 0%Z ->
        mensualite capital taux_annuel duree_annees =
          Some (capital / inject_Z (duree_annees * 12)))
  /\ (forall (revenu_mensuel taux_annuel : Q) (duree_annees : Z) (charges : Q),
        revenu_mensuel * CONFIG.MAX_DEBT_RATIO - charges <= 0 ->
        capacite_emprunt revenu_mensuel taux_annuel duree_annees charges = Some 0).
Proof.
  split; [| split].
  - intros m R HR. unfold taux_endettement.
    apply Qle_bool_iff in HR. now rewrite HR.
  - intros P r n Hr Hn. unfold mensualite.
    apply Qeq_bool_iff in Hr. rewrite Hr.
    apply div_Some. now apply inject_Z_mois_neq_0.
  - intros R r n c Hmax. unfold capacite_emprunt.
    apply Qle_bool_iff in Hmax. now rewrite Hmax.
Qed.

Lemma degenerate_inputs_by_branches_witness :
  taux_endettement 800 0 = Inf
  /\ taux_endettement 800 (-100) = Inf
  /\ mensualite 12000 0 10 = Some (12000 / inject_Z (10 * 12))
  /\ capacite_emprunt 1000 0.035 20 400 = Some 0.
Proof.
  destruct degenerate_inputs_by_branches as (Hratio & Hlin & Hcap).
  split; [apply Hratio; discriminate |].
  split; [apply Hratio; discriminate |].
  split; [apply Hlin; [reflexivity | discriminate] |].
  apply Hcap. discriminate.
Defined.





End Calculateur.

(** ** The amortization table *)

Section Amortissement.

Import CalculateurCredit.



Section Echeancier.

(** A payment [m] above zero at the monthly rate [t], [q] being the
    monthly factor. *)
Variables q m t : Q.
Hypothesis Hq : q == 1 + t.
Hypothesis Hq_pos : 0 < q.
Hypothesis Hm : 0 < m.



End Echeancier.






End Amortissement.


(** * Further properties of the calculator *)

Section CoutEtCapacite.

Import CalculateurCredit.














End CoutEtCapacite.

(** * Further properties of the amortization table *)

Section TableauAnnuel.

Import CalculateurCredit.







Section Versements.

Variables q m t : Q.
Hypothesis Hq : q == 1 + t.
Hypothesis Ht : 0 <= t.
Hypothesis Hm : 0 < m.






End Versements.





End TableauAnnuel.

(** * Further properties of the decision engine *)

Section ReglesEtScore.

Import CalculateurCredit MoteurDecision.











End ReglesEtScore.

Section ResultatComplet.

Import CalculateurCredit MoteurDecision.

Variable model : classifieur.



(** The strengths of the result are those of the five rules. *)
Lemma analyser_points_forts (d : dossier) (r : resultat) :
  analyser model d = Some r ->
  let montant := Py.get (montant_credit d) 0 in
  let age := Py.get (age d) 30%Z in
  let duree := Py.get (duree_annees d) 20%Z in
  points_forts r =
    snd (regle_apport (type_credit montant) montant (Py.get (apport d) 0)
           (regle_anciennete (Py.get (anciennete_emploi d) 0)
              (regle_age age (age + duree)
                 (regle_reste_a_vivre (d_reste_a_vivre (details r))
                    (Py.get (nb_enfants d) 0%Z)
                    (regle_taux_endettement (d_taux_endettement (details r))
                       (100%Z, [], [])))))).
Proof.
  unfold analyser.
  destruct (mensualite _ _ _) as [m |]; [| discriminate].
  cbn [Py.bind].
  destruct (cout_total _ _ _) as [[cout interets] |]; [| discriminate].
  cbn [Py.bind].
  destruct (capacite_emprunt _ _ _ _) as [capacite |]; [| discriminate].
  cbn [Py.bind].
  destruct (regle_apport _ _ _ _) as [[score al] forts] eqn:E.
  destruct (if Flottant.gtb _ 0.50 then _ else _) as [refus raison].
  intros H. injection H as <-.
  cbn [points_forts details d_reste_a_vivre d_taux_endettement].
  cbv zeta. now rewrite E.
Qed.




End ResultatComplet.

Section ScoresEtClassifieur.

Import CalculateurCredit MoteurDecision.









Lemma regle_apport_consommation (montant apport : Q) (b : bilan) :
  regle_apport consommation montant apport b = b.
Proof. now destruct b as [[s a] p]. Qed.

(** X13: for a consumer credit (a principal below 75000) the down
    payment plays no part: two applications that differ by their down
    payment only, present or not, get the same result. *)
Theorem apport_sans_effet_consommation (model : classifieur)
    (revenu montant : option Q) (duree age0 : option Z) (anciennete : option Q)
    (enfants : option Z) (charges apport1 apport2 : option Q) :
  Py.get montant 0 < CONFIG.SEUIL_IMMO ->
  analyser model
    (Dossier revenu montant duree age0 anciennete enfants charges apport1)
  = analyser model
      (Dossier revenu montant duree age0 anciennete enfants charges apport2).
Proof.
  intros Hm. apply geb_false in Hm.
  unfold analyser.
  cbn [revenu_annuel montant_credit duree_annees age anciennete_emploi
       nb_enfants charges_existantes apport].
  unfold type_credit. rewrite Hm. cbv iota.
  destruct (mensualite _ _ _) as [m |]; [| reflexivity].
  cbn [Py.bind].
  destruct (cout_total _ _ _) as [[cout interets] |]; [| reflexivity].
  cbn [Py.bind].
  destruct (capacite_emprunt _ _ _ _) as [capacite |]; [| reflexivity].
  cbn [Py.bind].
  rewrite !regle_apport_consommation.
  reflexivity.
Qed.

Lemma apport_sans_effet_consommation_witness :
  Py.get (Some 10000) 0 < CONFIG.SEUIL_IMMO
  /\ analyser Exemples.modele_absent
       (Dossier (Some 30000) (Some 10000) (Some 5%Z) (Some 40%Z) (Some 3)
          (Some 1%Z) (Some 0) None)
     = analyser Exemples.modele_absent
         (Dossier (Some 30000) (Some 10000) (Some 5%Z) (Some 40%Z) (Some 3)
            (Some 1%Z) (Some 0) (Some 9000)).
Proof.
  assert (H : Py.get (Some 10000) 0 < CONFIG.SEUIL_IMMO) by reflexivity.
  split; [exact H |].
  exact (apport_sans_effet_consommation Exemples.modele_absent _ _ _ _ _ _ _
           None (Some 9000) H).
Defined.

End ScoresEtClassifieur.

Section CapaciteEtCharges.

Import CalculateurCredit MoteurDecision.







End CapaciteEtCharges.

(** * The feature row *)

Section LigneDeFeatures.

Import MoteurDecision.



End LigneDeFeatures.

Section TableDUneLigne.

Import Ligne.

Lemma lookup_set (c k : String.string) (v : cellule) (d : dict) :
  lookup c (set k v d) = if String.eqb c k then Some v else lookup c d.
Proof.
  induction d as [| [k' v'] suite IH]; cbn [set lookup].
  - reflexivity.
  - destruct (String.eqb_spec k k') as [-> | Hk].
    + cbn [lookup]. now destruct (String.eqb c k').
    + cbn [lookup]. destruct (String.eqb_spec c k') as [-> | Hc].
      * destruct (String.eqb_spec k' k) as [E | _]; [congruence | reflexivity].
      * exact IH.
Qed.

Lemma lookup_affectations (c : String.string) (kvs : list (String.string * cellule))
    (init : dict) :
  lookup c (fold_left (fun d kv => set (fst kv) (snd kv) d) kvs init)
  = match lookup c (rev kvs) with
    | Some v => Some v
    | None => lookup c init
    end.
Proof.
  induction kvs as [| [k v] kvs IH] using rev_ind.
  - reflexivity.
  - rewrite fold_left_app, rev_app_distr. cbn [fold_left rev app fst snd lookup].
    rewrite lookup_set. destruct (String.eqb c k); [reflexivity | exact IH].
Qed.

Lemma lookup_cles (c : String.string) (features : list String.string) :
  lookup c (fold_left (fun d c' => set c' nan d) features [])
  = if ModelTrainer.dans c features then Some nan else None.
Proof.
  induction features as [| k features IH] using rev_ind.
  - reflexivity.
  - rewrite fold_left_app. cbn [fold_left]. rewrite lookup_set.
    unfold ModelTrainer.dans in *. rewrite existsb_app. cbn [existsb].
    rewrite IH. destruct (String.eqb c k).
    + now rewrite orb_true_r.
    + now rewrite orb_false_r.
Qed.

(** The assigned keys are distinct: the last assignment to a key is the
    only one. *)
Lemma lookup_rev_affectations (c : String.string) (r : row) :
  lookup c (rev (affectations r)) = lookup c (affectations r).
Proof.
  unfold affectations. cbn [rev app lookup].
  repeat match goal with
         | |- context [String.eqb c ?k] =>
             destruct (String.eqb_spec c k) as [-> | ?]; [reflexivity |]
         end.
  reflexivity.
Qed.

Lemma dans_In (c : String.string) (l : list String.string) :
  ModelTrainer.dans c l = true -> In c l.
Proof.
  unfold ModelTrainer.dans. rewrite existsb_exists.
  intros (k & Hk & E). apply String.eqb_eq in E. now subst.
Qed.

(** X17: the one-row table handed to the classifier has the columns of
    [self.features], in order, each holding the value assigned to its key
    when there is one and [nan] otherwise; with the default columns each
    of the fifteen assigned values is in the table and the 29 other
    columns are [nan]. *)
Theorem X_pred_colonnes :
  (forall (features : list String.string) (r : row),
      X_pred features r
      = map (fun c => (c, Py.get (lookup c (affectations r)) nan)) features)
  /\ (forall (r : row) (kv : String.string * cellule),
        In kv (affectations r) -> In kv (X_pred COLONNES.FEATURES_FINAL r))
  /\ (forall r : row,
        length (filter (fun c => match lookup c (affectations r) with
                                 | None => true
                                 | Some _ => false
                                 end) COLONNES.FEATURES_FINAL) = 29%nat).
Proof.
  assert (Hcol : forall features r,
    X_pred features r
    = map (fun c => (c, Py.get (lookup c (affectations r)) nan)) features).
  { intros features r. unfold X_pred. apply map_ext. intros c.
    unfold row_dict. rewrite lookup_affectations, lookup_rev_affectations, lookup_cles.
    destruct (lookup c (affectations r)); [reflexivity |].
    now destruct (ModelTrainer.dans c features). }
  split; [exact Hcol |]. split.
  - intros r kv Hin. rewrite Hcol. apply in_map_iff.
    unfold affectations in Hin. cbn [In] in Hin.
    repeat match goal with
           | H : _ \/ _ |- _ => destruct H as [H | H]
           | H : False |- _ => destruct H
           end; subst kv;
      match goal with
      | |- exists x, _ = (?k, _) /\ _ =>
          exists k; split; [reflexivity | apply dans_In; reflexivity]
      end.
  - intros r. reflexivity.
Qed.

(** X18: the columns [load_and_prepare_data] builds are the
    [FEATURES_FINAL] of the configuration, which the engine uses when it
    is given no list or an empty one: 44 columns, none twice. *)
Theorem colonnes_du_modele :
  ModelTrainer.features_final = COLONNES.FEATURES_FINAL
  /\ self_features None = ModelTrainer.features_final
  /\ self_features (Some []) = ModelTrainer.features_final
  /\ length COLONNES.FEATURES_FINAL = 44%nat
  /\ NoDup COLONNES.FEATURES_FINAL.
Proof.
  repeat (split; [reflexivity |]).
  assert (H : nodup String.string_dec COLONNES.FEATURES_FINAL
              = COLONNES.FEATURES_FINAL) by (vm_compute; reflexivity).
  rewrite <- H. apply NoDup_nodup.
Qed.

End TableDUneLigne.

(** * The routes of the API *)

Section Arrondis.



End Arrondis.

Section Routes.

Import CalculateurCredit MoteurDecision.



End Routes.

Section RoutesDeCalcul.

Import CalculateurCredit MoteurDecision.






End RoutesDeCalcul.

(** * Instances of the properties above *)

Section Instances.

Import CalculateurCredit MoteurDecision.




Lemma X_pred_colonnes_witness :
  let r := features Exemples.dossier_A 1000 20 in
  In ("DEBT_RATIO"%string, DEBT_RATIO r) (Ligne.affectations r)
  /\ In ("DEBT_RATIO"%string, DEBT_RATIO r)
       (Ligne.X_pred COLONNES.FEATURES_FINAL r).
Proof.
  cbv zeta.
  assert (H : In ("DEBT_RATIO"%string,
                  DEBT_RATIO (features Exemples.dossier_A 1000 20))
                (Ligne.affectations (features Exemples.dossier_A 1000 20))).
  { unfold Ligne.affectations. do 10 right. left. reflexivity. }
  split; [exact H |].
  exact (proj1 (proj2 X_pred_colonnes) _ _ H).
Defined.

End Instances.

Section DetailsDuResultat.

Import CalculateurCredit MoteurDecision.



End DetailsDuResultat.

Section PoidsDuClassifieur.

Import CalculateurCredit MoteurDecision.



End PoidsDuClassifieur.

Section DureeEtTaux.

Import CalculateurCredit.






End DureeEtTaux.
